(** * omni_table_demo: the SayCan-style action selector and motion controller

    A shallow embedding of [omni_table_demo/omni_table_demo.py]:
    the [Action] enumeration, [SimpleValueFunction.get_value],
    [ActionSelector.select_action], [MotionController.get_twist_for_action]
    and [OmniTableRobotSayCan.sound_callback], with the properties the
    design document states about them.

    Conventions of the embedding.
    - A Python [float] is an IEEE-754 binary64 value: [spec_float] of the
      Standard Library with [prec = 53] and [emax = 1024]; [*], unary [-],
      [>] and [==] are [SFmul], [SFopp], [SFltb] (flipped) and [SFeqb].
    - A Python [str] is a [string]; the texts considered are ASCII, on which
      [str.lower] maps ['A'..'Z'] to ['a'..'z'] and keeps every other
      character.
    - Code that may raise returns a [result]: [Ok v] or [Raise e].
    - What the language model returns is an untyped Python value ([pyobj]);
      subscripting it is [getitem], which raises as Python does. *)

From Stdlib Require Import ZArith Lia Bool Ascii String List SpecFloat.
From stdpp Require Import base decidable countable list gmap strings.

Open Scope string_scope.
Open Scope list_scope.
Open Scope Z_scope.

(** ** Floats *)

Module Float.

Definition prec : Z := 53.
Definition emax : Z := 1024.

Definition float : Type := spec_float.

Definition mul : float -> float -> float := SFmul prec emax.
Definition div : float -> float -> float := SFdiv prec emax.
Definition neg : float -> float := SFopp.
Definition abs : float -> float := SFabs.
Definition ltb : float -> float -> bool := SFltb.
Definition eqb : float -> float -> bool := SFeqb.
(** [x > y] *)
Definition gtb (x y : float) : bool := ltb y x.

(** The float of an integer (exact below [2^53]). *)
Definition of_Z (n : Z) : float := binary_normalize prec emax n 0 false.

(** The decimal literal [m / 10^k], correctly rounded, as the Python
    parser reads [0.45] ([dec 45 2]): for [|m| < 2^53] and [k <= 22]
    both operands are exact and IEEE division rounds the quotient once. *)
Definition dec (m : Z) (k : nat) : float := div (of_Z m) (of_Z (10 ^ Z.of_nat k)).

Definition zero : float := S754_zero false.

(** Zeros and NaN: what a product with a zero can be. *)
Definition zero_or_nan (x : float) : bool :=
  match x with
  | S754_zero _ | S754_nan => true
  | _ => false
  end.

End Float.

Abbreviation float := Float.float.

(** ** A small model of Python values and exceptions *)

Inductive exn : Type :=
| KeyError
| IndexError
| TypeError
| AttributeError
| ValueError
| RuntimeError (msg : string).

Inductive result (A : Type) : Type :=
| Ok (a : A)
| Raise (e : exn).
Arguments Ok {A} a.
Arguments Raise {A} e.

Definition bind {A B : Type} (m : result A) (k : A -> result B) : result B :=
  match m with
  | Ok a => k a
  | Raise e => Raise e
  end.

Notation "x <~ m ;; k" := (bind m (fun x => k))
  (at level 100, m at next level, right associativity).

(** Subscript keys that occur in the program: integers and strings. *)
Inductive pykey : Type :=
| KInt (i : Z)
| KStr (s : string).

#[global] Instance pykey_eq_dec : EqDecision pykey.
Proof. solve_decision. Defined.

(** Python values a text-generation back end can hand back: strings, lists
    and dictionaries (in insertion order, keys distinct). *)
#[warnings="-register-all"]
Inductive pyobj : Type :=
| PyStr (s : string)
| PyList (xs : list pyobj)
| PyDict (kvs : list (pykey * pyobj)).

Fixpoint dict_lookup (k : pykey) (kvs : list (pykey * pyobj)) : option pyobj :=
  match kvs with
  | [] => None
  | (k', v) :: rest => if decide (k = k') then Some v else dict_lookup k rest
  end.

(** Sequence index as Python normalises it: [i] in [[-n, n)], negative
    indices counted from the end. *)
Definition seq_index (n : nat) (i : Z) : option nat :=
  if (0 <=? i) && (i <? Z.of_nat n) then Some (Z.to_nat i)
  else if (i <? 0) && (- Z.of_nat n <=? i) then Some (Z.to_nat (Z.of_nat n + i))
  else None.

(** [o[k]]. *)
Definition getitem (o : pyobj) (k : pykey) : result pyobj :=
  match o, k with
  | PyDict kvs, _ =>
      match dict_lookup k kvs with
      | Some v => Ok v
      | None => Raise KeyError
      end
  | PyList xs, KInt i =>
      match seq_index (List.length xs) i with
      | Some n => match nth_error xs n with Some v => Ok v | None => Raise IndexError end
      | None => Raise IndexError
      end
  | PyStr s, KInt i =>
      match seq_index (String.length s) i with
      | Some n => match String.get n s with
                  | Some c => Ok (PyStr (String c EmptyString))
                  | None => Raise IndexError
                  end
      | None => Raise IndexError
      end
  | PyList _, KStr _ => Raise TypeError
  | PyStr _, KStr _ => Raise TypeError
  end.

(** *** Strings *)

Definition lower_ascii (c : ascii) : ascii :=
  let n := nat_of_ascii c in
  if (Nat.leb 65 n && Nat.leb n 90)%bool then ascii_of_nat (n + 32) else c.

(** [s.lower()] on ASCII text. *)
Fixpoint lower (s : string) : string :=
  match s with
  | EmptyString => EmptyString
  | String c s' => String (lower_ascii c) (lower s')
  end.

(** [o.lower()]: only [str] has the method. *)
Definition call_lower (o : pyobj) : result string :=
  match o with
  | PyStr s => Ok (lower s)
  | _ => Raise AttributeError
  end.

(** [sub in s] for two strings: [sub] occurs in [s] as a contiguous run. *)
Fixpoint str_contains (sub s : string) : bool :=
  String.prefix sub s ||
  match s with
  | EmptyString => false
  | String _ s' => str_contains sub s'
  end.

(** The mathematical reading of "literal substring". *)
Definition is_substring (sub s : string) : Prop :=
  exists pre post, s = pre +:+ sub +:+ post.

(** *** f-strings

    The prompt and the log line are f-strings with [float] replacement
    fields.  [repr] of a float is not part of the program, so a formatted
    string is kept as its parts: literal text and the floats to render. *)
Inductive fpart : Type :=
| FText (s : string)
| FFloat (x : float).

Definition fstring : Type := list fpart.

(** ** Enums *)

Inductive Action : Type :=
| MOVE_FORWARD
| MOVE_BACKWARD
| MOVE_LEFT
| MOVE_RIGHT
| MOVE_FORWARD_LEFT
| MOVE_FORWARD_RIGHT
| MOVE_BACKWARD_LEFT
| MOVE_BACKWARD_RIGHT
| SPIN_CLOCKWISE
| SPIN_COUNTERCLOCKWISE
| STOP.

(** [action.value] *)
Definition value (action : Action) : string :=
  match action with
  | MOVE_FORWARD => "move_forward"
  | MOVE_BACKWARD => "move_backward"
  | MOVE_LEFT => "move_left"
  | MOVE_RIGHT => "move_right"
  | MOVE_FORWARD_LEFT => "move_forward_left"
  | MOVE_FORWARD_RIGHT => "move_forward_right"
  | MOVE_BACKWARD_LEFT => "move_backward_left"
  | MOVE_BACKWARD_RIGHT => "move_backward_right"
  | SPIN_CLOCKWISE => "spin_clockwise"
  | SPIN_COUNTERCLOCKWISE => "spin_counterclockwise"
  | STOP => "stop"
  end.

(** [for action in Action]: the members in definition order. *)
Definition all_actions : list Action :=
  [ MOVE_FORWARD; MOVE_BACKWARD; MOVE_LEFT; MOVE_RIGHT;
    MOVE_FORWARD_LEFT; MOVE_FORWARD_RIGHT; MOVE_BACKWARD_LEFT;
    MOVE_BACKWARD_RIGHT; SPIN_CLOCKWISE; SPIN_COUNTERCLOCKWISE; STOP ].

#[global] Instance Action_eq_dec : EqDecision Action.
Proof. solve_decision. Defined.

Definition Action_index (a : Action) : nat :=
  match a with
  | MOVE_FORWARD => 0 | MOVE_BACKWARD => 1 | MOVE_LEFT => 2 | MOVE_RIGHT => 3
  | MOVE_FORWARD_LEFT => 4 | MOVE_FORWARD_RIGHT => 5 | MOVE_BACKWARD_LEFT => 6
  | MOVE_BACKWARD_RIGHT => 7 | SPIN_CLOCKWISE => 8 | SPIN_COUNTERCLOCKWISE => 9
  | STOP => 10
  end%nat.

#[global] Program Instance Action_countable : Countable Action :=
  inj_countable' Action_index (fun n => nth n all_actions STOP) _.
Next Obligation. by intros []. Qed.

(** ** Constants *)

Definition DEFAULT_SPEED : float := Float.dec 2 1.

(** What [math.cos(math.pi/4)] evaluates to under a correctly rounding
    [cos]: 0.7071067811865476 = 0x3FE6A09E667F3BCD. The motion controller
    below takes [DIAGONAL_FACTOR] as a parameter; this is the value used
    when a command is computed on concrete numbers. *)
Definition cos_pi_4 : float := S754_finite false 0x16A09E667F3BCD (-53).

(** ** Interfaces *)

Class ILanguageModel (LM : Type) : Type :=
  generate : LM -> fstring -> Z -> Z -> result (list pyobj).

Class IValueFunction (VF : Type) : Type :=
  get_value : VF -> Action -> float.

(** ** Implementations *)

(** [GPT2LanguageModel]: [self.model] is the [transformers] pipeline, an
    opaque callable. *)
Record GPT2LanguageModel : Type := {
  model : fstring -> Z -> Z -> result (list pyobj)
}.

#[global] Instance GPT2LanguageModel_generate : ILanguageModel GPT2LanguageModel :=
  fun self prompt max_length num_return_sequences =>
    model self prompt max_length num_return_sequences.

(** [SimpleValueFunction]: [self.values] is a dict from [Action] to float. *)
Record SimpleValueFunction : Type := {
  values : gmap Action float
}.

(** [SimpleValueFunction.__init__] *)
Definition SimpleValueFunction_init : SimpleValueFunction :=
  {| values :=
       <[MOVE_FORWARD := Float.dec 5 1]>
       (<[MOVE_BACKWARD := Float.dec 4 1]>
       (<[MOVE_LEFT := Float.dec 4 1]>
       (<[MOVE_RIGHT := Float.dec 4 1]>
       (<[MOVE_FORWARD_LEFT := Float.dec 45 2]>
       (<[MOVE_FORWARD_RIGHT := Float.dec 45 2]>
       (<[MOVE_BACKWARD_LEFT := Float.dec 35 2]>
       (<[MOVE_BACKWARD_RIGHT := Float.dec 35 2]>
       (<[SPIN_CLOCKWISE := Float.dec 3 1]>
       (<[SPIN_COUNTERCLOCKWISE := Float.dec 3 1]>
       (<[STOP := Float.dec 1 1]> ∅)))))))))) |}.

(** [self.values.get(action, 0.0)] *)
#[global] Instance SimpleValueFunction_get_value : IValueFunction SimpleValueFunction :=
  fun self action => default Float.zero (values self !! action).

Record RobotContext : Type := {
  description : string
}.

(** The dataclass default. *)
Definition RobotContext_default : RobotContext :=
  {| description := "The robot table is in a quiet room." |}.

(** ** The builtin [max(iterable, key=...)]

    CPython keeps the first item and replaces it only by an item whose key
    is strictly greater ([>]) than the key of the item kept so far. *)
Fixpoint max_loop {A : Type} (key : A -> float) (best : A) (items : list A) : A :=
  match items with
  | [] => best
  | x :: rest => max_loop key (if Float.gtb (key x) (key best) then x else best) rest
  end.

Definition py_max {A : Type} (key : A -> float) (items : list A) : result A :=
  match items with
  | [] => Raise ValueError
  | x :: rest => Ok (max_loop key x rest)
  end.

(** ** ActionSelector *)

Section ActionSelector.
Context {LM VF : Type} `{!ILanguageModel LM} `{!IValueFunction VF}.

Record ActionSelector : Type := {
  language_model : LM;
  value_function : VF
}.

(** The prompt of [select_action]. *)
Definition prompt_of (context : RobotContext) (angle confidence : float) : fstring :=
  [ FText "Context: "; FText (description context);
    FText (String "010" "Sound detected at angle "); FFloat angle;
    FText " degrees with confidence "; FFloat confidence;
    FText ". The robot table should" ].

(** [proposal[0]['generated_text'].lower()] *)
Definition proposal_text (proposal : pyobj) : result string :=
  first <~ getitem proposal (KInt 0) ;;
  text <~ getitem first (KStr "generated_text") ;;
  call_lower text.

(** The inner loop [for action in Action: ...] over the actions still to
    visit, appending to [scores]. *)
Fixpoint scan_actions (self : ActionSelector) (confidence : float) (proposal : pyobj)
    (actions : list Action) (scores : list (Action * float))
    : result (list (Action * float)) :=
  match actions with
  | [] => Ok scores
  | action :: rest =>
      text <~ proposal_text proposal ;;
      if str_contains (value action) text then
        let score := Float.mul (get_value (value_function self) action) confidence in
        scan_actions self confidence proposal rest (scores ++ [(action, score)])
      else
        scan_actions self confidence proposal rest scores
  end.

(** The outer loop [for proposal in action_proposals: ...]. *)
Fixpoint scan_proposals (self : ActionSelector) (confidence : float)
    (action_proposals : list pyobj) (scores : list (Action * float))
    : result (list (Action * float)) :=
  match action_proposals with
  | [] => Ok scores
  | proposal :: rest =>
      scores' <~ scan_actions self confidence proposal all_actions scores ;;
      scan_proposals self confidence rest scores'
  end.

(** Lines 83-88: the score list the two loops build from [scores = []]. *)
Definition build_scores (self : ActionSelector) (confidence : float)
    (action_proposals : list pyobj) : result (list (Action * float)) :=
  scan_proposals self confidence action_proposals [].

(** Lines 90-92. *)
Definition pick (scores : list (Action * float)) : result Action :=
  match scores with
  | [] => Ok STOP
  | _ :: _ => best <~ py_max snd scores ;; Ok (fst best)
  end.

Definition select_action (self : ActionSelector) (context : RobotContext)
    (angle confidence : float) : result Action :=
  action_proposals <~
    generate (language_model self) (prompt_of context angle confidence) 50 3 ;;
  scores <~ build_scores self confidence action_proposals ;;
  pick scores.

End ActionSelector.

Arguments ActionSelector : clear implicits.

(** ** geometry_msgs/Twist *)

Record Vector3 : Type := { x : float; y : float; z : float }.
Record Twist : Type := { linear : Vector3; angular : Vector3 }.

(** [Twist()]: every field is 0.0. *)
Definition Twist_new : Twist :=
  {| linear := {| x := Float.zero; y := Float.zero; z := Float.zero |};
     angular := {| x := Float.zero; y := Float.zero; z := Float.zero |} |}.

Definition set_linear_x (v : float) (t : Twist) : Twist :=
  {| linear := {| x := v; y := y (linear t); z := z (linear t) |};
     angular := angular t |}.
Definition set_linear_y (v : float) (t : Twist) : Twist :=
  {| linear := {| x := x (linear t); y := v; z := z (linear t) |};
     angular := angular t |}.
Definition set_angular_z (v : float) (t : Twist) : Twist :=
  {| linear := linear t;
     angular := {| x := x (angular t); y := y (angular t); z := v |} |}.

(** ** MotionController *)

Section MotionController.
(** The module constant [DIAGONAL_FACTOR = math.cos(math.pi/4)]. *)
Variable DIAGONAL_FACTOR : float.

Definition get_twist_for_action (action : Action) (speed : float) : Twist :=
  let twist := Twist_new in
  match action with
  | MOVE_FORWARD => set_linear_x speed twist
  | MOVE_BACKWARD => set_linear_x (Float.neg speed) twist
  | MOVE_LEFT => set_linear_y speed twist
  | MOVE_RIGHT => set_linear_y (Float.neg speed) twist
  | MOVE_FORWARD_LEFT =>
      set_linear_y (Float.mul speed DIAGONAL_FACTOR)
        (set_linear_x (Float.mul speed DIAGONAL_FACTOR) twist)
  | MOVE_FORWARD_RIGHT =>
      set_linear_y (Float.mul (Float.neg speed) DIAGONAL_FACTOR)
        (set_linear_x (Float.mul speed DIAGONAL_FACTOR) twist)
  | MOVE_BACKWARD_LEFT =>
      set_linear_y (Float.mul speed DIAGONAL_FACTOR)
        (set_linear_x (Float.mul (Float.neg speed) DIAGONAL_FACTOR) twist)
  | MOVE_BACKWARD_RIGHT =>
      set_linear_y (Float.mul (Float.neg speed) DIAGONAL_FACTOR)
        (set_linear_x (Float.mul (Float.neg speed) DIAGONAL_FACTOR) twist)
  | SPIN_CLOCKWISE => set_angular_z (Float.neg speed) twist
  | SPIN_COUNTERCLOCKWISE => set_angular_z speed twist
  | STOP => twist
  end.

End MotionController.

(** ** OmniTableRobotSayCan *)

Section Node.
Context {LM VF : Type} `{!ILanguageModel LM} `{!IValueFunction VF}.
Variable DIAGONAL_FACTOR : float.

(** The node's state: its fields, what it has published on [rcm/cmd_vel]
    and what it has logged, oldest first. *)
Record Node : Type := {
  context : RobotContext;
  action_selector : ActionSelector LM VF;
  published : list Twist;
  logged : list fstring
}.

(** [update_context]; [data] is [msg.data]. *)
Definition update_context (self : Node) (data : string) : Node :=
  {| context := {| description := data |};
     action_selector := action_selector self;
     published := published self;
     logged := logged self ++ [[FText "Updated context: "; FText data]] |}.

(** [angle, confidence = msg.data] *)
Definition unpack2 (data : list float) : result (float * float) :=
  match data with
  | [angle; confidence] => Ok (angle, confidence)
  | _ => Raise ValueError
  end.

(** [sound_callback]; [data] is [msg.data]. *)
Definition sound_callback (self : Node) (data : list float) : result Node :=
  sample <~ unpack2 data ;;
  let '(angle, confidence) := sample in
  action <~ select_action (action_selector self) (context self) angle confidence ;;
  let twist := get_twist_for_action DIAGONAL_FACTOR action DEFAULT_SPEED in
  Ok {| context := context self;
        action_selector := action_selector self;
        published := published self ++ [twist];
        logged := logged self ++
          [[FText "Executing action: "; FText (value action);
            FText " based on sound: angle="; FFloat angle;
            FText ", confidence="; FFloat confidence]] |}.

End Node.

(** ** Specification-side definitions

    The notions the design document uses to describe the code above. *)

(** The proposal [proposal] carries the generated text [raw]:
    [proposal[0]['generated_text']] evaluates to the string [raw]. *)
Definition generated_text (proposal : pyobj) (raw : string) : Prop :=
  exists first,
    getitem proposal (KInt 0) = Ok first /\
    getitem first (KStr "generated_text") = Ok (PyStr raw).

(** The (action, score) pairs one candidate text gives rise to: the actions,
    in enumeration order, whose keyword the text contains, each with
    [get_value(action) * confidence]. *)
Definition keyword_matches {VF : Type} `{!IValueFunction VF} (vf : VF)
    (confidence : float) (text : string) : list (Action * float) :=
  List.map (fun action => (action, Float.mul (get_value vf action) confidence))
    (List.filter (fun action => str_contains (value action) text) all_actions).

(** All pairs, candidate by candidate, from the candidates' raw texts. *)
Definition all_matches {VF : Type} `{!IValueFunction VF} (vf : VF)
    (confidence : float) (raws : list string) : list (Action * float) :=
  List.flat_map (fun raw => keyword_matches vf confidence (lower raw)) raws.

(** The velocity command of a [Twist]: (linear_x, linear_y, angular_z). *)
Definition velocity_command (t : Twist) : float * float * float :=
  (x (linear t), y (linear t), z (angular t)).

(** The mapping table of the design document, section 4.4, with
    [s] the speed and [d] the diagonal factor. *)
Definition spec_table (d : float) (action : Action) (s : float) : float * float * float :=
  let sd := Float.mul s d in
  match action with
  | MOVE_FORWARD => (s, Float.zero, Float.zero)
  | MOVE_BACKWARD => (Float.neg s, Float.zero, Float.zero)
  | MOVE_LEFT => (Float.zero, s, Float.zero)
  | MOVE_RIGHT => (Float.zero, Float.neg s, Float.zero)
  | MOVE_FORWARD_LEFT => (sd, sd, Float.zero)
  | MOVE_FORWARD_RIGHT => (sd, Float.neg sd, Float.zero)
  | MOVE_BACKWARD_LEFT => (Float.neg sd, sd, Float.zero)
  | MOVE_BACKWARD_RIGHT => (Float.neg sd, Float.neg sd, Float.zero)
  | SPIN_CLOCKWISE => (Float.zero, Float.zero, Float.neg s)
  | SPIN_COUNTERCLOCKWISE => (Float.zero, Float.zero, s)
  | STOP => (Float.zero, Float.zero, Float.zero)
  end.

Definition is_diagonal (action : Action) : bool :=
  match action with
  | MOVE_FORWARD_LEFT | MOVE_FORWARD_RIGHT
  | MOVE_BACKWARD_LEFT | MOVE_BACKWARD_RIGHT => true
  | _ => false
  end.

(** ** Concrete runs

    Language models that answer every prompt the same way, the shape of
    candidate [select_action] can read, and the selector of [main] built on
    such a model and the shipped value table. *)

(** A candidate whose text [select_action] finds: [[{'generated_text': text}]]. *)
Definition candidate (text : string) : pyobj :=
  PyList [PyDict [(KStr "generated_text", PyStr text)]].


Definition fixed_model (answer : result (list pyobj)) : GPT2LanguageModel :=
  {| model := fun _ _ _ => answer |}.

Definition fixed_selector (answer : result (list pyobj))
    : ActionSelector GPT2LanguageModel SimpleValueFunction :=
  {| language_model := fixed_model answer;
     value_function := SimpleValueFunction_init |}.

Definition fixed_node (answer : result (list pyobj))
    : Node (LM := GPT2LanguageModel) (VF := SimpleValueFunction) :=
  {| context := RobotContext_default;
     action_selector := fixed_selector answer;
     published := [];
     logged := [] |}.

(** The two candidates of the design document's diagonal scenario. *)
Definition scenario_candidates : list pyobj :=
  [ candidate "move_forward_left please"; candidate "spin_clockwise too" ].

Definition scenario_texts : list string :=
  [ "move_forward_left please"; "spin_clockwise too" ].

(** A failure of the text-generation back end. *)
Definition generation_failure : exn := RuntimeError "text generation failed".

(** ** The node over its lifetime *)

(** What the two subscriptions of [OmniTableRobotSayCan.__init__] receive:
    a [Float32MultiArray] on 'sound_localization' or a [String] on
    'robot_context', each given by its [data]. *)
Inductive message : Type :=
| SoundLocalization (data : list float)
| RobotContextText (data : string).

Definition is_sound (msg : message) : bool :=
  match msg with
  | SoundLocalization _ => true
  | RobotContextText _ => false
  end.

Section NodeLifetime.
Context {LM VF : Type} `{!ILanguageModel LM} `{!IValueFunction VF}.
Variable DIAGONAL_FACTOR : float.

(** [OmniTableRobotSayCan.__init__]: the default context, the selector on
    the two collaborators, one line logged and nothing published yet.  The
    subscriptions it creates are [deliver] below; the publisher is the
    [published] list. *)
Definition OmniTableRobotSayCan_init (lm : LM) (vf : VF) : Node :=
  {| context := RobotContext_default;
     action_selector := {| language_model := lm; value_function := vf |};
     published := [];
     logged :=
       [[FText "Omnidirectional Table Robot node with SayCan-inspired decision making initialized"]] |}.

(** The callback each subscription was created with. *)
Definition deliver (self : Node) (msg : message) : result Node :=
  match msg with
  | SoundLocalization data => sound_callback DIAGONAL_FACTOR self data
  | RobotContextText data => Ok (update_context self data)
  end.

(** Messages handled one after the other; the first exception ends the run. *)
Fixpoint deliver_all (self : Node) (msgs : list message) : result Node :=
  match msgs with
  | [] => Ok self
  | msg :: rest => self' <~ deliver self msg ;; deliver_all self' rest
  end.

End NodeLifetime.

(** The description in force after the context updates among [msgs]. *)
Fixpoint last_description (current : string) (msgs : list message) : string :=
  match msgs with
  | [] => current
  | RobotContextText data :: rest => last_description data rest
  | SoundLocalization _ :: rest => last_description current rest
  end.

(** ** Further specification-side definitions *)

(** [x >= y] on floats. *)
Definition score_geb (a b : float) : bool := Float.gtb a b || Float.eqb a b.

(** The action that moves or turns the other way. *)
Definition opposite (action : Action) : Action :=
  match action with
  | MOVE_FORWARD => MOVE_BACKWARD
  | MOVE_BACKWARD => MOVE_FORWARD
  | MOVE_LEFT => MOVE_RIGHT
  | MOVE_RIGHT => MOVE_LEFT
  | MOVE_FORWARD_LEFT => MOVE_BACKWARD_RIGHT
  | MOVE_FORWARD_RIGHT => MOVE_BACKWARD_LEFT
  | MOVE_BACKWARD_LEFT => MOVE_FORWARD_RIGHT
  | MOVE_BACKWARD_RIGHT => MOVE_FORWARD_LEFT
  | SPIN_CLOCKWISE => SPIN_COUNTERCLOCKWISE
  | SPIN_COUNTERCLOCKWISE => SPIN_CLOCKWISE
  | STOP => STOP
  end.

(** The axis move whose keyword a diagonal's keyword starts with. *)
Definition axis_of (action : Action) : Action :=
  match action with
  | MOVE_FORWARD_LEFT | MOVE_FORWARD_RIGHT => MOVE_FORWARD
  | MOVE_BACKWARD_LEFT | MOVE_BACKWARD_RIGHT => MOVE_BACKWARD
  | other => other
  end.

(** The score [select_action] gives an action. *)
Definition score_of {VF : Type} `{!IValueFunction VF} (vf : VF)
    (confidence : float) (action : Action) : float :=
  Float.mul (get_value vf action) confidence.

(** * Properties *)

(** ** The float order *)

Module FloatFacts.
Import Float.

Ltac order_cases :=
  repeat match goal with
  | |- context [PosDef.Pos.compare_cont Eq ?a ?b] =>
      change (PosDef.Pos.compare_cont Eq a b) with (a ?= b)%positive
  | H : context [PosDef.Pos.compare_cont Eq ?a ?b] |- _ =>
      change (PosDef.Pos.compare_cont Eq a b) with (a ?= b)%positive in H
  end;
  repeat match goal with
  | |- context [(?a ?= ?b)%Z] => destruct (Z.compare_spec a b)
  | |- context [(?a ?= ?b)%positive] => destruct (Pos.compare_spec a b)
  | H : context [(?a ?= ?b)%Z] |- _ => destruct (Z.compare_spec a b)
  | H : context [(?a ?= ?b)%positive] |- _ => destruct (Pos.compare_spec a b)
  end; simpl in *; try congruence; try lia.

Lemma ltb_trans (a b c : float) : ltb a b = true -> ltb b c = true -> ltb a c = true.
Proof.
  unfold ltb, SFltb.
  destruct a as [[]|[]| |[] ma ea], b as [[]|[]| |[] mb eb], c as [[]|[]| |[] mc ec];
    simpl; try congruence; intros; order_cases.
Qed.

Lemma ltb_asym (a b : float) : ltb a b = true -> ltb b a = false.
Proof.
  unfold ltb, SFltb.
  destruct a as [[]|[]| |[] ma ea], b as [[]|[]| |[] mb eb];
    simpl; try congruence; intros; order_cases.
Qed.

Lemma ltb_not_eqb (a b : float) : ltb a b = true -> eqb a b = false.
Proof.
  unfold ltb, eqb, SFltb, SFeqb. by destruct (SFcompare a b) as [[]|].
Qed.

Lemma ltb_eqb_r (a b c : float) : ltb a b = true -> eqb c b = true -> ltb a c = true.
Proof.
  unfold ltb, eqb, SFltb, SFeqb.
  destruct a as [[]|[]| |[] ma ea], b as [[]|[]| |[] mb eb], c as [[]|[]| |[] mc ec];
    simpl; try congruence; intros; order_cases.
Qed.



Lemma zero_or_nan_gtb (a b : float) :
  zero_or_nan a = true -> zero_or_nan b = true -> gtb a b = false.
Proof. by destruct a as [?|?| |? ? ?], b as [?|?| |? ? ?]. Qed.

Lemma binary_round_aux_negb (s : bool) (m e : Z) (l : location) :
  binary_round_aux prec emax (negb s) m e l = SFopp (binary_round_aux prec emax s m e l).
Proof.
  unfold binary_round_aux.
  destruct (shr_fexp prec emax m e l) as [mrs' e'].
  destruct (shr_fexp prec emax _ e' loc_Exact) as [mrs'' e''].
  destruct (shr_m mrs''); try reflexivity.
  by destruct (e'' <=? emax - prec).
Qed.

(** [(-x) * y] is [-(x * y)], bit for bit. *)
Lemma mul_neg_l (a b : float) : mul (neg a) b = neg (mul a b).
Proof.
  destruct a as [sa|sa| |sa ma ea], b as [sb|sb| |sb mb eb]; simpl;
    try reflexivity; try (by destruct sa, sb).
  replace (xorb (negb sa) sb) with (negb (xorb sa sb)) by (by destruct sa, sb).
  apply binary_round_aux_negb.
Qed.

Lemma abs_neg (a : float) : abs (neg a) = abs a.
Proof. by destruct a. Qed.

End FloatFacts.

(** ** Substrings *)

Section Strings.

Lemma append_cons (c : ascii) (s t : string) : String c s +:+ t = String c (s +:+ t).
Proof. reflexivity. Qed.

Lemma prefix_app (sub s : string) :
  String.prefix sub s = true <-> exists post, s = sub +:+ post.
Proof.
  revert s. induction sub as [|c sub IH]; intros s; simpl.
  - destruct s; split; eauto.
  - destruct s as [|c' s]; simpl.
    + split; [done|]. by intros [post ?].
    + destruct (ascii_dec c c') as [->|Hne].
      * rewrite IH. split; intros [post Hpost]; exists post;
          rewrite append_cons in *; congruence.
      * split; [done|]. intros [post Hpost]. rewrite append_cons in Hpost. congruence.
Qed.

(** The test of the [in] operator is the substring relation. *)
Lemma str_contains_spec (sub s : string) :
  str_contains sub s = true <-> is_substring sub s.
Proof.
  unfold is_substring. induction s as [|c s IH].
  - change (str_contains sub "") with (String.prefix sub "" || false).
    rewrite orb_false_r, prefix_app. split.
    + intros [post ->]. by exists "", post.
    + intros (pre & post & Heq). destruct pre; [eauto|done].
  - change (str_contains sub (String c s))
      with (String.prefix sub (String c s) || str_contains sub s).
    rewrite orb_true_iff, IH, prefix_app. split.
    + intros [[post ->]|(pre & post & ->)].
      * by exists "", post.
      * by exists (String c pre), post.
    + intros (pre & post & Heq). destruct pre as [|c' pre].
      * left. eauto.
      * right. exists pre, post. rewrite append_cons in Heq. congruence.
Qed.


End Strings.

(** ** The builtin [max] *)

Section Max.
Context {A : Type} (key : A -> float).
Import Float FloatFacts.

(** [max_loop] returns the item at some position [i] of [best :: items];
    no item has a greater key; no item before position [i] has an equal
    key; and the result is [best] itself unless its key is strictly
    greater than that of [best]. NaN keys are allowed. *)
Lemma max_loop_spec (items : list A) (best : A) :
  exists i : nat,
    (best :: items) !! i = Some (max_loop key best items) /\
    (forall p, p ∈ best :: items -> gtb (key p) (key (max_loop key best items)) = false) /\
    (forall j p, (j < i)%nat -> (best :: items) !! j = Some p ->
                 eqb (key p) (key (max_loop key best items)) = false) /\
    (i = 0%nat \/ ltb (key best) (key (max_loop key best items)) = true).
Proof.
  revert best. induction items as [|it rest IH]; intros best.
  - exists 0%nat. simpl. split_and!; [done| |lia|by left].
    intros p ->%list_elem_of_singleton. unfold gtb.
    destruct (ltb (key best) (key best)) eqn:Hlt; [|done].
    by rewrite (ltb_asym _ _ Hlt) in Hlt.
  - simpl. destruct (gtb (key it) (key best)) eqn:Hgt.
    + destruct (IH it) as (i & Hi & Hmax & Hfirst & Hstep).
      set (r := max_loop key it rest) in *.
      assert (Hbr : ltb (key best) (key r) = true).
      { destruct Hstep as [->|Hxr]; [|by eapply ltb_trans].
        simpl in Hi. by injection Hi as <-. }
      exists (S i). split_and!; [done| | |by right].
      * intros p [->|Hp]%elem_of_cons; [|by apply Hmax].
        by apply ltb_asym.
      * intros [|j] p Hj Hy; simpl in Hy.
        -- injection Hy as <-. by apply ltb_not_eqb.
        -- apply (Hfirst j); [lia|done].
    + destruct (IH best) as (i & Hi & Hmax & Hfirst & Hstep).
      set (r := max_loop key best rest) in *.
      destruct i as [|i].
      * simpl in Hi. injection Hi as Hr.
        exists 0%nat. split_and!; [by rewrite <- Hr| |lia|by left].
        intros p [->|[->|Hp]%elem_of_cons]%elem_of_cons.
        -- apply Hmax. left.
        -- by rewrite <- Hr.
        -- apply Hmax. by right.
      * destruct Hstep as [|Hbr]; [done|].
        exists (S (S i)). split_and!; [done| | |by right].
        -- intros p [->|[->|Hp]%elem_of_cons]%elem_of_cons.
           ++ apply Hmax. left.
           ++ unfold gtb. destruct (ltb (key r) (key it)) eqn:Hry; [|done].
              unfold gtb in Hgt. by rewrite (ltb_trans _ _ _ Hbr Hry) in Hgt.
           ++ apply Hmax. by right.
        -- intros [|[|j]] p Hj Hy; simpl in Hy.
           ++ injection Hy as <-. by apply ltb_not_eqb.
           ++ injection Hy as <-.
              destruct (eqb (key it) (key r)) eqn:Hxr; [|done].
              unfold gtb in Hgt. by rewrite (ltb_eqb_r _ _ _ Hbr Hxr) in Hgt.
           ++ apply (Hfirst (S j)); [lia|done].
Qed.

(** When no key is greater than another, [max_loop] keeps the first item. *)
Lemma max_loop_flat (items : list A) (best : A) :
  (forall p q, p ∈ best :: items -> q ∈ best :: items -> gtb (key p) (key q) = false) ->
  max_loop key best items = best.
Proof.
  revert best. induction items as [|it rest IH]; intros best Hflat; [done|].
  simpl. rewrite Hflat by (rewrite !elem_of_cons; auto).
  apply IH. intros p q Hp Hq.
  apply Hflat; rewrite elem_of_cons in *; rewrite elem_of_cons; tauto.
Qed.

End Max.

(** ** The scoring loops *)

Section Scoring.
Context {LM VF : Type} `{!ILanguageModel LM} `{!IValueFunction VF}.
Implicit Types (self : ActionSelector LM VF) (confidence : float).
Implicit Types (proposal : pyobj) (scores : list (Action * float)).

Lemma proposal_text_lower proposal (raw : string) :
  generated_text proposal raw -> proposal_text proposal = Ok (lower raw).
Proof.
  intros (first & Hfirst & Htext). unfold proposal_text.
  rewrite Hfirst. simpl. by rewrite Htext.
Qed.

(** One pass of the inner loop over a readable proposal appends the
    matching actions of the remaining enumeration, in order. *)
Lemma scan_actions_ok self confidence proposal (text : string)
    (actions : list Action) scores :
  proposal_text proposal = Ok text ->
  scan_actions self confidence proposal actions scores =
    Ok (scores ++
        List.map (fun action =>
                    (action, Float.mul (get_value (value_function self) action) confidence))
          (List.filter (fun action => str_contains (value action) text) actions)).
Proof.
  intros Htext. revert scores.
  induction actions as [|action rest IH]; intros scores; simpl.
  - by rewrite app_nil_r.
  - rewrite Htext. simpl. destruct (str_contains (value action) text); simpl.
    + rewrite IH. by rewrite <- app_assoc.
    + apply IH.
Qed.

Lemma scan_proposals_cons self confidence proposal (rest : list pyobj) scores :
  scan_proposals self confidence (proposal :: rest) scores =
    (scores' <~ scan_actions self confidence proposal all_actions scores ;;
     scan_proposals self confidence rest scores').
Proof. reflexivity. Qed.

Lemma scan_proposals_ok self confidence (proposals : list pyobj)
    (raws : list string) scores :
  Forall2 generated_text proposals raws ->
  scan_proposals self confidence proposals scores =
    Ok (scores ++ all_matches (value_function self) confidence raws).
Proof.
  intros Hall. revert scores.
  induction Hall as [|proposal raw proposals raws Hraw _ IH]; intros scores.
  - simpl. by rewrite app_nil_r.
  - rewrite scan_proposals_cons.
    rewrite (scan_actions_ok _ _ _ (lower raw)) by by apply proposal_text_lower.
    simpl. rewrite IH. by rewrite <- app_assoc.
Qed.

Lemma build_scores_ok self confidence (proposals : list pyobj) (raws : list string) :
  Forall2 generated_text proposals raws ->
  build_scores self confidence proposals =
    Ok (all_matches (value_function self) confidence raws).
Proof. intros Hall. unfold build_scores. by rewrite (scan_proposals_ok _ _ _ raws). Qed.

(** The loops read the selector's value function only. *)
Lemma scan_actions_value_function self1 self2 confidence proposal
    (actions : list Action) scores :
  value_function self1 = value_function self2 ->
  scan_actions self1 confidence proposal actions scores =
  scan_actions self2 confidence proposal actions scores.
Proof.
  intros Hvf. revert scores.
  induction actions as [|action rest IH]; intros scores; simpl; [done|].
  destruct (proposal_text proposal) as [text|e]; simpl; [|done].
  rewrite Hvf. by destruct (str_contains (value action) text).
Qed.

Lemma build_scores_value_function self1 self2 confidence (proposals : list pyobj) :
  value_function self1 = value_function self2 ->
  build_scores self1 confidence proposals = build_scores self2 confidence proposals.
Proof.
  intros Hvf. unfold build_scores. generalize (@nil (Action * float)).
  induction proposals as [|proposal rest IH]; intros scores; [done|].
  rewrite !scan_proposals_cons.
  rewrite (scan_actions_value_function self1 self2) by done.
  destruct (scan_actions self2 confidence proposal all_actions scores); simpl; [|done].
  apply IH.
Qed.




End Scoring.

(** ** ActionSelector.select_action *)

Section SelectAction.
Context {LM VF : Type} `{!ILanguageModel LM} `{!IValueFunction VF}.
Implicit Types (self : ActionSelector LM VF) (context : RobotContext).
Implicit Types (angle confidence : float) (proposals : list pyobj).
Implicit Types (raws : list string) (scores : list (Action * float)).

Lemma select_action_pick self context angle confidence proposals scores :
  generate (language_model self) (prompt_of context angle confidence) 50 3 = Ok proposals ->
  build_scores self confidence proposals = Ok scores ->
  select_action self context angle confidence = pick scores.
Proof. intros Hgen Hscores. unfold select_action. rewrite Hgen. simpl. by rewrite Hscores. Qed.

Lemma keyword_matches_elem (vf : VF) confidence (text : string) (action : Action) :
  (action, Float.mul (get_value vf action) confidence) ∈ keyword_matches vf confidence text
  <-> is_substring (value action) text.
Proof.
  unfold keyword_matches.
  rewrite <- str_contains_spec, list_elem_of_In, in_map_iff. split.
  - intros (action' & [= <- _] & Hin). by apply filter_In in Hin as [_ ?].
  - intros Hcontains. exists action. split; [done|]. apply filter_In. split; [|done].
    destruct action; simpl; tauto.
Qed.


Lemma pick_first_maximum scores :
  scores <> [] ->
  exists (i : nat) (action : Action) (score : float),
    pick scores = Ok action /\
    scores !! i = Some (action, score) /\
    (forall p, p ∈ scores -> Float.gtb p.2 score = false) /\
    (forall j p, (j < i)%nat -> scores !! j = Some p -> Float.eqb p.2 score = false).
Proof.
  destruct scores as [|first rest]; [done|]. intros _.
  destruct (max_loop_spec snd rest first) as (i & Hi & Hmax & Hfirst & _).
  destruct (max_loop snd first rest) as [action score] eqn:Hbest.
  exists i, action, score. simpl in *. by rewrite Hbest.
Qed.

(** C2. Whenever the score list built by [select_action] is non-empty,
    the returned action belongs to a pair [(action, score)] of the list
    such that no pair has a greater score, and no pair before it in list
    order (earlier candidate, or same candidate and earlier action of the
    enumeration) has an equal score: the first maximum is returned. *)
Theorem select_action_first_maximum
    self context angle confidence proposals scores :
  generate (language_model self) (prompt_of context angle confidence) 50 3 = Ok proposals ->
  build_scores self confidence proposals = Ok scores ->
  scores <> [] ->
  exists (i : nat) (action : Action) (score : float),
    select_action self context angle confidence = Ok action /\
    scores !! i = Some (action, score) /\
    (forall p, p ∈ scores -> Float.gtb p.2 score = false) /\
    (forall j p, (j < i)%nat -> scores !! j = Some p -> Float.eqb p.2 score = false).
Proof.
  intros Hgen Hscores Hne.
  rewrite (select_action_pick _ _ _ _ proposals scores) by done.
  by apply pick_first_maximum.
Qed.

(** With scores that are all zeros or NaN, the first pair wins. *)
Lemma pick_flat scores :
  (forall p, p ∈ scores -> Float.zero_or_nan p.2 = true) ->
  pick scores = Ok (hd STOP (List.map fst scores)).
Proof.
  destruct scores as [|first rest]; [done|]. intros Hflat. simpl.
  rewrite max_loop_flat; [done|].
  intros p q Hp Hq. apply FloatFacts.zero_or_nan_gtb; by apply Hflat.
Qed.



(** C10. Two runs of [select_action] that differ in angle and context (and
    possibly in what the language model is) but use the same value
    function and confidence and receive the same answer from the language
    model return the same result: angle and context reach the prompt
    only. *)
Theorem select_action_independent_of_angle_and_context
    self1 self2 context1 context2 angle1 angle2 confidence :
  value_function self1 = value_function self2 ->
  generate (language_model self1) (prompt_of context1 angle1 confidence) 50 3
    = generate (language_model self2) (prompt_of context2 angle2 confidence) 50 3 ->
  select_action self1 context1 angle1 confidence
    = select_action self2 context2 angle2 confidence.
Proof.
  intros Hvf Hgen. unfold select_action. rewrite Hgen.
  destruct (generate (language_model self2) _ 50 3) as [proposals|e]; simpl; [|done].
  by rewrite (build_scores_value_function self1 self2).
Qed.

End SelectAction.

(** ** SimpleValueFunction.get_value *)

(** C7. [get_value] is a function of the table and the action alone: for an
    action present in the table it returns the stored weight, for an action
    absent from it it returns 0.0. *)
Theorem get_value_table_or_default (self : SimpleValueFunction) (action : Action) :
  (forall weight : float,
      values self !! action = Some weight -> get_value self action = weight) /\
  (values self !! action = None -> get_value self action = Float.zero).
Proof.
  unfold get_value, SimpleValueFunction_get_value.
  split; [intros weight Hin|intros Hout]; by rewrite ?Hin, ?Hout.
Qed.

(** The shipped table has an entry for each of the 11 actions. *)
Lemma shipped_values_total (action : Action) :
  exists weight : float,
    values SimpleValueFunction_init !! action = Some weight /\
    get_value SimpleValueFunction_init action = weight.
Proof. destruct action; eexists; split; vm_compute; reflexivity. Qed.

(** A table that lacks an action: its value is 0.0. *)
Example get_value_absent :
  get_value {| values := {[ MOVE_FORWARD := Float.dec 5 1 ]} |} STOP = Float.zero.
Proof. reflexivity. Qed.

(** ** MotionController.get_twist_for_action *)

Section MotionControllerFacts.
Variable DIAGONAL_FACTOR : float.
Implicit Types (action : Action) (speed : float).

(** C6. For each of the 11 actions and every speed, the command of
    [get_twist_for_action] is the row of the mapping table: axis moves put
    [s] or [-s] on one linear axis, the diagonals put [s*d] with the
    table's signs on both, the spins put [-s] or [s] on angular_z, STOP is
    all zeros; on a diagonal both linear components have the magnitude of
    [s*d]. *)
Theorem get_twist_for_action_table action speed :
  velocity_command (get_twist_for_action DIAGONAL_FACTOR action speed)
    = spec_table DIAGONAL_FACTOR action speed /\
  (is_diagonal action = true ->
   let twist := get_twist_for_action DIAGONAL_FACTOR action speed in
   Float.abs (x (linear twist)) = Float.abs (Float.mul speed DIAGONAL_FACTOR) /\
   Float.abs (y (linear twist)) = Float.abs (Float.mul speed DIAGONAL_FACTOR)).
Proof.
  split.
  - destruct action; unfold velocity_command; simpl;
      by rewrite ?FloatFacts.mul_neg_l.
  - destruct action; try discriminate; intros _; simpl;
      by rewrite ?FloatFacts.mul_neg_l, ?FloatFacts.abs_neg.
Qed.

(** C9. Every command has linear.z, angular.x and angular.y equal to 0.0,
    and either both linear components are 0.0 or angular.z is 0.0. *)
Theorem get_twist_for_action_planar action speed :
  let twist := get_twist_for_action DIAGONAL_FACTOR action speed in
  z (linear twist) = Float.zero /\
  x (angular twist) = Float.zero /\
  y (angular twist) = Float.zero /\
  ((x (linear twist) = Float.zero /\ y (linear twist) = Float.zero) \/
   z (angular twist) = Float.zero).
Proof. destruct action; simpl; tauto. Qed.

End MotionControllerFacts.

(** ** The diagonal scenario *)

(** C4, as amended. With the shipped value table and confidence 0.5, when
    the language model returns two candidates that carry the texts
    "move_forward_left please" and "spin_clockwise too", each as
    [proposal[0]['generated_text']], the first text contains the keyword
    move_forward as well as move_forward_left: the scores are
    MOVE_FORWARD 0.25, MOVE_FORWARD_LEFT 0.225 and SPIN_CLOCKWISE 0.15,
    [select_action] returns MOVE_FORWARD, and the velocity command at speed
    0.2 is (0.2, 0, 0). *)
Theorem scenario_selects_move_forward {LM : Type} `{!ILanguageModel LM}
    (lm : LM) (context : RobotContext) (angle DIAGONAL_FACTOR : float)
    (proposals : list pyobj) :
  generate lm (prompt_of context angle (Float.dec 5 1)) 50 3 = Ok proposals ->
  Forall2 generated_text proposals scenario_texts ->
  let self := {| language_model := lm; value_function := SimpleValueFunction_init |} in
  get_value SimpleValueFunction_init MOVE_FORWARD_LEFT = Float.dec 45 2 /\
  get_value SimpleValueFunction_init SPIN_CLOCKWISE = Float.dec 3 1 /\
  build_scores self (Float.dec 5 1) proposals
    = Ok [ (MOVE_FORWARD, Float.dec 25 2);
           (MOVE_FORWARD_LEFT, Float.dec 225 3);
           (SPIN_CLOCKWISE, Float.dec 15 2) ] /\
  select_action self context angle (Float.dec 5 1) = Ok MOVE_FORWARD /\
  velocity_command (get_twist_for_action DIAGONAL_FACTOR MOVE_FORWARD (Float.dec 2 1))
    = (Float.dec 2 1, Float.zero, Float.zero).
Proof.
  intros Hgen Hall self.
  assert (Hscores : build_scores self (Float.dec 5 1) proposals
    = Ok [ (MOVE_FORWARD, Float.dec 25 2);
           (MOVE_FORWARD_LEFT, Float.dec 225 3);
           (SPIN_CLOCKWISE, Float.dec 15 2) ]).
  { rewrite (build_scores_ok self _ _ scenario_texts Hall). by vm_compute. }
  split_and!; [by vm_compute|by vm_compute|done| |done].
  rewrite (select_action_pick self _ _ _ _ _ Hgen Hscores). by vm_compute.
Qed.

(** ** Failure of the language model *)

Section Failure.
Context {LM VF : Type} `{!ILanguageModel LM} `{!IValueFunction VF}.
Variable DIAGONAL_FACTOR : float.

(** C8, as amended. When [generate] raises, [select_action] raises the
    same exception and so does [sound_callback]: no action is chosen and
    nothing is published for the sample. *)
Theorem language_model_failure_propagates
    (self : Node (LM := LM) (VF := VF)) (angle confidence : float) (e : exn) :
  generate (language_model (action_selector self))
    (prompt_of (context self) angle confidence) 50 3 = Raise e ->
  select_action (action_selector self) (context self) angle confidence = Raise e /\
  sound_callback DIAGONAL_FACTOR self [angle; confidence] = Raise e.
Proof.
  intros Hgen.
  assert (Hsel : select_action (action_selector self) (context self) angle confidence
                 = Raise e) by (unfold select_action; by rewrite Hgen).
  split; [done|]. unfold sound_callback. simpl. by rewrite Hsel.
Qed.

(** When an action is selected, its command at the default speed is
    published and one line is logged. *)
Lemma sound_callback_publishes
    (self : Node (LM := LM) (VF := VF)) (angle confidence : float) (action : Action) :
  select_action (action_selector self) (context self) angle confidence = Ok action ->
  exists self' : Node,
    sound_callback DIAGONAL_FACTOR self [angle; confidence] = Ok self' /\
    published self' =
      published self ++ [get_twist_for_action DIAGONAL_FACTOR action DEFAULT_SPEED] /\
    context self' = context self.
Proof.
  intros Hsel. unfold sound_callback. simpl. rewrite Hsel. simpl. eauto.
Qed.

End Failure.

(** ** The theorems on concrete runs *)

Lemma scenario_texts_generated : Forall2 generated_text scenario_candidates scenario_texts.
Proof. repeat constructor; eexists; split; reflexivity. Qed.



(** C2 on the diagonal scenario. *)
Lemma select_action_first_maximum_witness :
  exists (i : nat) (action : Action) (score : float),
    select_action (fixed_selector (Ok scenario_candidates)) RobotContext_default
      (Float.of_Z 45) (Float.dec 5 1) = Ok action /\
    [ (MOVE_FORWARD, Float.dec 25 2);
      (MOVE_FORWARD_LEFT, Float.dec 225 3);
      (SPIN_CLOCKWISE, Float.dec 15 2) ] !! i = Some (action, score) /\
    (forall p, p ∈ [ (MOVE_FORWARD, Float.dec 25 2);
                     (MOVE_FORWARD_LEFT, Float.dec 225 3);
                     (SPIN_CLOCKWISE, Float.dec 15 2) ] ->
               Float.gtb p.2 score = false) /\
    (forall j p, (j < i)%nat ->
                 [ (MOVE_FORWARD, Float.dec 25 2);
                   (MOVE_FORWARD_LEFT, Float.dec 225 3);
                   (SPIN_CLOCKWISE, Float.dec 15 2) ] !! j = Some p ->
                 Float.eqb p.2 score = false).
Proof.
  apply (select_action_first_maximum
           (fixed_selector (Ok scenario_candidates)) RobotContext_default
           (Float.of_Z 45) (Float.dec 5 1) scenario_candidates).
  - reflexivity.
  - vm_compute. reflexivity.
  - discriminate.
Defined.



(** C4 as stated fails: on the scenario MOVE_FORWARD is selected, not
    MOVE_FORWARD_LEFT, and the command is (0.2, 0, 0). *)
Lemma scenario_not_move_forward_left :
  select_action (fixed_selector (Ok scenario_candidates))
    RobotContext_default (Float.of_Z 45) (Float.dec 5 1) = Ok MOVE_FORWARD /\
  MOVE_FORWARD <> MOVE_FORWARD_LEFT /\
  velocity_command (get_twist_for_action cos_pi_4 MOVE_FORWARD DEFAULT_SPEED)
    = (Float.dec 2 1, Float.zero, Float.zero) /\
  velocity_command (get_twist_for_action cos_pi_4 MOVE_FORWARD DEFAULT_SPEED)
    <> velocity_command (get_twist_for_action cos_pi_4 MOVE_FORWARD_LEFT DEFAULT_SPEED).
Proof.
  split_and!; [vm_compute; reflexivity|discriminate|reflexivity|].
  vm_compute. discriminate.
Qed.

(** C4, amended, on the selector of [main] with a model that returns the
    scenario's candidates, each shaped [[{'generated_text': text}]]. *)
Lemma scenario_selects_move_forward_witness :
  select_action (fixed_selector (Ok scenario_candidates))
    RobotContext_default (Float.of_Z 45) (Float.dec 5 1) = Ok MOVE_FORWARD.
Proof.
  exact (proj1 (proj2 (proj2 (proj2
    (scenario_selects_move_forward (fixed_model (Ok scenario_candidates))
       RobotContext_default (Float.of_Z 45) cos_pi_4 scenario_candidates
       eq_refl scenario_texts_generated))))).
Defined.



(** C5, amended, on the empty candidate list. *)
Example select_action_no_candidate :
  select_action (fixed_selector (Ok [])) RobotContext_default (Float.of_Z 45) (Float.dec 9 1)
  = Ok STOP.
Proof. reflexivity. Qed.

(** C6 on a diagonal at the default speed. *)
Lemma get_twist_for_action_table_witness :
  let twist := get_twist_for_action cos_pi_4 MOVE_BACKWARD_RIGHT DEFAULT_SPEED in
  Float.abs (x (linear twist)) = Float.abs (Float.mul DEFAULT_SPEED cos_pi_4) /\
  Float.abs (y (linear twist)) = Float.abs (Float.mul DEFAULT_SPEED cos_pi_4).
Proof.
  exact (proj2 (get_twist_for_action_table cos_pi_4 MOVE_BACKWARD_RIGHT DEFAULT_SPEED)
           eq_refl).
Defined.

(** C7 on the shipped table and on a table without STOP. *)
Lemma get_value_table_or_default_witness :
  get_value SimpleValueFunction_init MOVE_FORWARD_LEFT = Float.dec 45 2 /\
  get_value {| values := {[ MOVE_FORWARD := Float.dec 5 1 ]} |} STOP = Float.zero.
Proof.
  split.
  - apply (proj1 (get_value_table_or_default SimpleValueFunction_init MOVE_FORWARD_LEFT)).
    vm_compute. reflexivity.
  - apply (proj2 (get_value_table_or_default
                    {| values := {[ MOVE_FORWARD := Float.dec 5 1 ]} |} STOP)).
    vm_compute. reflexivity.
Defined.

(** C8 as stated fails: with a model that raises, [select_action] and
    [sound_callback] raise; no STOP is produced. *)
Lemma language_model_failure_not_stop :
  select_action (fixed_selector (Raise generation_failure))
    RobotContext_default (Float.of_Z 45) (Float.dec 9 1) = Raise generation_failure /\
  Raise generation_failure <> Ok STOP /\
  sound_callback cos_pi_4 (fixed_node (Raise generation_failure))
    [Float.of_Z 45; Float.dec 9 1] = Raise generation_failure.
Proof. split_and!; [reflexivity|discriminate|reflexivity]. Qed.

(** C8, amended, on the node of [main] with a model that raises. *)
Lemma language_model_failure_propagates_witness :
  select_action (fixed_selector (Raise generation_failure))
    RobotContext_default (Float.of_Z 45) (Float.dec 9 1) = Raise generation_failure /\
  sound_callback cos_pi_4 (fixed_node (Raise generation_failure))
    [Float.of_Z 45; Float.dec 9 1] = Raise generation_failure.
Proof.
  exact (language_model_failure_propagates cos_pi_4
           (fixed_node (Raise generation_failure)) (Float.of_Z 45) (Float.dec 9 1)
           generation_failure eq_refl).
Defined.

(** C10 on two runs with different contexts and angles. *)
Lemma select_action_independent_of_angle_and_context_witness :
  select_action (fixed_selector (Ok scenario_candidates))
    RobotContext_default (Float.of_Z 45) (Float.dec 5 1)
  = select_action (fixed_selector (Ok scenario_candidates))
      {| description := "The robot table is in a crowded hall." |}
      (Float.of_Z 270) (Float.dec 5 1).
Proof.
  apply (select_action_independent_of_angle_and_context
           (fixed_selector (Ok scenario_candidates))
           (fixed_selector (Ok scenario_candidates))); reflexivity.
Defined.

(** The design document's first scenario: one candidate that spells the
    action with a space has no keyword in it, so the result is STOP. *)
Example scenario_move_forward_now :
  select_action (fixed_selector (Ok [candidate "move forward now"]))
    RobotContext_default (Float.of_Z 45) (Float.dec 9 1) = Ok STOP.
Proof. vm_compute. reflexivity. Qed.

(** A candidate shaped as the declared [List[Dict]], a dictionary with the
    only key 'generated_text', cannot be read: [proposal[0]] raises. *)
Example select_action_dict_candidate :
  select_action
    (fixed_selector (Ok [PyDict [(KStr "generated_text", PyStr "move_forward")]]))
    RobotContext_default (Float.of_Z 45) (Float.dec 9 1) = Raise KeyError.
Proof. vm_compute. reflexivity. Qed.

(** * Further properties of the code *)

(** ** The node's callbacks *)

Section Callbacks.
Context {LM VF : Type} `{!ILanguageModel LM} `{!IValueFunction VF}.
Variable DIAGONAL_FACTOR : float.
Implicit Types (self : Node (LM := LM) (VF := VF)) (msgs : list message).

Lemma pick_total (scores : list (Action * float)) : exists action, pick scores = Ok action.
Proof. destruct scores as [|first rest]; simpl; eauto. Qed.

Lemma last_cons_default {A : Type} (a d : A) (l : list A) :
  List.last (a :: l) d = List.last l a.
Proof.
  revert a d. induction l as [|b l IH]; intros a d; [done|].
  change (List.last (a :: b :: l) d) with (List.last (b :: l) d).
  rewrite IH. symmetry. apply IH.
Qed.

(** X1. A sound message whose [data] does not hold exactly two numbers
    makes [sound_callback] raise ValueError at the unpacking, whatever the
    language model would answer. *)
Theorem sound_callback_malformed_sample self (data : list float) :
  List.length data <> 2%nat ->
  sound_callback DIAGONAL_FACTOR self data = Raise ValueError.
Proof.
  intros Hlen. unfold sound_callback.
  destruct data as [|angle [|confidence [|extra rest]]]; simpl in *; try done.
Qed.

(** X2. A sound message [angle, confidence] answered by candidates that
    carry texts always succeeds: the action picked from the candidates'
    matches is turned into a command at the default speed, that one command
    is appended to what was published, one line is logged, and the context
    and the selector are left as they were. *)
Theorem sound_callback_publishes_selected self (angle confidence : float)
    (proposals : list pyobj) (raws : list string) :
  generate (language_model (action_selector self))
    (prompt_of (context self) angle confidence) 50 3 = Ok proposals ->
  Forall2 generated_text proposals raws ->
  exists action : Action,
    pick (all_matches (value_function (action_selector self)) confidence raws) = Ok action /\
    sound_callback DIAGONAL_FACTOR self [angle; confidence] =
      Ok {| context := context self;
            action_selector := action_selector self;
            published := published self ++
              [get_twist_for_action DIAGONAL_FACTOR action DEFAULT_SPEED];
            logged := logged self ++
              [[FText "Executing action: "; FText (value action);
                FText " based on sound: angle="; FFloat angle;
                FText ", confidence="; FFloat confidence]] |}.
Proof.
  intros Hgen Hall.
  destruct (pick_total (all_matches (value_function (action_selector self)) confidence raws))
    as [action Hpick].
  exists action. split; [done|].
  unfold sound_callback. simpl.
  rewrite (select_action_pick _ _ _ _ proposals
             (all_matches (value_function (action_selector self)) confidence raws));
    [|done|by apply build_scores_ok].
  by rewrite Hpick.
Qed.

(** X3. Context updates alone never fail and never publish: after any
    sequence of them the description is the text of the last one (the
    previous description if there was none), the selector and the published
    commands are unchanged, and one line per update was logged. *)
Theorem context_updates_last_wins self (texts : list string) :
  exists self' : Node,
    deliver_all DIAGONAL_FACTOR self (List.map RobotContextText texts) = Ok self' /\
    description (context self') = List.last texts (description (context self)) /\
    action_selector self' = action_selector self /\
    published self' = published self /\
    List.length (logged self') = (List.length (logged self) + List.length texts)%nat.
Proof.
  revert self. induction texts as [|text rest IH]; intros self.
  - exists self. simpl. split_and!; try done; lia.
  - destruct (IH (update_context self text)) as (self' & Hrun & Hdesc & Hsel & Hpub & Hlog).
    exists self'. split_and!; try done.
    + rewrite Hdesc. simpl description. by rewrite last_cons_default.
    + rewrite Hlog. simpl. rewrite length_app. simpl. lia.
Qed.

(** X4. Over any sequence of messages that is handled without exception,
    the selector never changes, the description is that of the last context
    update, exactly one command per sound message was appended to what was
    published, each of them the command of some action at the default
    speed, and one line per message was logged. *)
Theorem deliver_all_invariant self msgs (self' : Node) :
  deliver_all DIAGONAL_FACTOR self msgs = Ok self' ->
  action_selector self' = action_selector self /\
  description (context self') = last_description (description (context self)) msgs /\
  (exists actions : list Action,
      List.length actions = List.length (List.filter is_sound msgs) /\
      published self' = published self ++
        List.map (fun action => get_twist_for_action DIAGONAL_FACTOR action DEFAULT_SPEED)
          actions) /\
  List.length (logged self') = (List.length (logged self) + List.length msgs)%nat.
Proof.
  revert self. induction msgs as [|msg rest IH]; intros self Hrun.
  - simpl in Hrun. injection Hrun as <-. split_and!; [done|done| |simpl; lia].
    exists []. by rewrite app_nil_r.
  - simpl in Hrun. destruct msg as [data|text]; simpl in Hrun.
    + destruct (sound_callback DIAGONAL_FACTOR self data) as [mid|e] eqn:Hcb;
        simpl in Hrun; [|done].
      destruct (IH mid Hrun) as (Hsel & Hdesc & (actions & Hlen & Hpub) & Hlog).
      unfold sound_callback in Hcb.
      destruct (unpack2 data) as [[angle confidence]|e] eqn:Hdata; simpl in Hcb; [|done].
      destruct (select_action (action_selector self) (context self) angle confidence)
        as [action|e] eqn:Haction; simpl in Hcb; [|done].
      injection Hcb as <-. simpl in *. split_and!; [done|done| |].
      * exists (action :: actions). simpl. split; [by rewrite Hlen|].
        by rewrite Hpub, <- app_assoc.
      * rewrite Hlog, length_app. simpl. lia.
    + destruct (IH (update_context self text) Hrun) as (Hsel & Hdesc & Hact & Hlog).
      simpl in *. split_and!; [done|done|done|].
      rewrite Hlog, length_app. simpl. lia.
Qed.

End Callbacks.

(** ** Candidates that cannot be read *)

Section Unreadable.
Context {LM VF : Type} `{!ILanguageModel LM} `{!IValueFunction VF}.
Implicit Types (self : ActionSelector LM VF) (context : RobotContext).
Implicit Types (angle confidence : float) (proposals : list pyobj).
Implicit Types (raws : list string) (scores : list (Action * float)).

Lemma scan_actions_raise self confidence (proposal : pyobj) (e : exn)
    (action : Action) (rest : list Action) scores :
  proposal_text proposal = Raise e ->
  scan_actions self confidence proposal (action :: rest) scores = Raise e.
Proof. intros Htext. simpl. by rewrite Htext. Qed.

Lemma scan_proposals_raise self confidence (good : list pyobj) raws
    (bad : pyobj) (rest : list pyobj) (e : exn) scores :
  Forall2 generated_text good raws ->
  proposal_text bad = Raise e ->
  scan_proposals self confidence (good ++ bad :: rest) scores = Raise e.
Proof.
  intros Hgood Hbad. revert scores.
  induction Hgood as [|proposal raw good raws Hraw _ IH]; intros scores.
  - rewrite app_nil_l, scan_proposals_cons.
    unfold all_actions. by rewrite (scan_actions_raise _ _ _ e).
  - rewrite <- app_comm_cons, scan_proposals_cons.
    rewrite (scan_actions_ok _ _ _ (lower raw)) by by apply proposal_text_lower.
    simpl. apply IH.
Qed.

(** X5. If some candidate cannot be read, that is
    [proposal[0]['generated_text'].lower()] raises on it, and the candidates
    before it can, [select_action] raises that exception: the matches
    already collected from the earlier candidates are lost. *)
Theorem select_action_unreadable_candidate
    self context angle confidence (good : list pyobj) raws
    (bad : pyobj) (rest : list pyobj) (e : exn) :
  generate (language_model self) (prompt_of context angle confidence) 50 3
    = Ok (good ++ bad :: rest) ->
  Forall2 generated_text good raws ->
  proposal_text bad = Raise e ->
  select_action self context angle confidence = Raise e.
Proof.
  intros Hgen Hgood Hbad. unfold select_action. rewrite Hgen. simpl.
  unfold build_scores. by rewrite (scan_proposals_raise _ _ good raws bad rest e).
Qed.

Lemma proposal_text_str (s : string) :
  proposal_text (PyStr s) = Raise (if decide (s = "") then IndexError else TypeError).
Proof. by destruct s. Qed.

Lemma proposal_text_dict (kvs : list (pykey * pyobj)) :
  dict_lookup (KInt 0) kvs = None -> proposal_text (PyDict kvs) = Raise KeyError.
Proof. intros Hkey. unfold proposal_text. simpl. by rewrite Hkey. Qed.

(** X6. A candidate that is a plain string is never read as a text:
    [select_action] raises TypeError on it (IndexError when the string is
    empty), whatever the string says. *)
Theorem select_action_string_candidate
    self context angle confidence (good : list pyobj) raws
    (s : string) (rest : list pyobj) :
  generate (language_model self) (prompt_of context angle confidence) 50 3
    = Ok (good ++ PyStr s :: rest) ->
  Forall2 generated_text good raws ->
  select_action self context angle confidence
    = Raise (if decide (s = "") then IndexError else TypeError).
Proof.
  intros Hgen Hgood. unfold select_action. rewrite Hgen. simpl.
  unfold build_scores. rewrite (scan_proposals_raise _ _ good raws (PyStr s) rest
    (if decide (s = "") then IndexError else TypeError)); [done|done|].
  apply proposal_text_str.
Qed.

(** X7. A candidate that is a dictionary without the integer key 0, such as
    [{'generated_text': ...}], makes [select_action] raise KeyError. *)
Theorem select_action_dict_without_key_0
    self context angle confidence (good : list pyobj) raws
    (kvs : list (pykey * pyobj)) (rest : list pyobj) :
  generate (language_model self) (prompt_of context angle confidence) 50 3
    = Ok (good ++ PyDict kvs :: rest) ->
  Forall2 generated_text good raws ->
  dict_lookup (KInt 0) kvs = None ->
  select_action self context angle confidence = Raise KeyError.
Proof.
  intros Hgen Hgood Hkey. unfold select_action. rewrite Hgen. simpl.
  unfold build_scores.
  rewrite (scan_proposals_raise _ _ good raws (PyDict kvs) rest KeyError); [done|done|].
  by apply proposal_text_dict.
Qed.

End Unreadable.

(** ** What [select_action] can return *)

Section Selection.
Context {LM VF : Type} `{!ILanguageModel LM} `{!IValueFunction VF}.
Implicit Types (self : ActionSelector LM VF) (context : RobotContext).
Implicit Types (angle confidence : float) (proposals : list pyobj).
Implicit Types (raws : list string) (scores : list (Action * float)).

Lemma select_action_readable self context angle confidence proposals raws :
  generate (language_model self) (prompt_of context angle confidence) 50 3 = Ok proposals ->
  Forall2 generated_text proposals raws ->
  select_action self context angle confidence
    = pick (all_matches (value_function self) confidence raws).
Proof.
  intros Hgen Hall. apply (select_action_pick _ _ _ _ proposals); [done|].
  by apply build_scores_ok.
Qed.

(** A pair of the score list comes from a candidate that contains the
    action's keyword, and its score is the action's. *)
Lemma all_matches_elem (vf : VF) confidence raws (p : Action * float) :
  p ∈ all_matches vf confidence raws ->
  p.2 = score_of vf confidence p.1 /\
  exists raw, raw ∈ raws /\ str_contains (value p.1) (lower raw) = true.
Proof.
  unfold all_matches, keyword_matches.
  rewrite list_elem_of_In, in_flat_map. intros (raw & Hraw & Hp).
  apply in_map_iff in Hp as (action & <- & Hin). apply filter_In in Hin as [_ Hin].
  split; [done|]. exists raw. by rewrite list_elem_of_In.
Qed.

(** X8. On candidates that carry texts [select_action] never raises, and
    the action it returns is one whose keyword occurs in the lowercased
    text of some candidate, or else it is STOP and no candidate contains
    any keyword. *)
Theorem select_action_returns_mentioned_or_stop
    self context angle confidence proposals raws :
  generate (language_model self) (prompt_of context angle confidence) 50 3 = Ok proposals ->
  Forall2 generated_text proposals raws ->
  exists action : Action,
    select_action self context angle confidence = Ok action /\
    ((exists raw, raw ∈ raws /\ is_substring (value action) (lower raw)) \/
     (action = STOP /\
      forall raw other, raw ∈ raws -> ~ is_substring (value other) (lower raw))).
Proof.
  intros Hgen Hall. rewrite (select_action_readable _ _ _ _ proposals raws) by done.
  destruct (all_matches (value_function self) confidence raws) as [|first rest] eqn:Hscores.
  - exists STOP. split; [done|]. right. split; [done|].
    intros raw other Hraw Hsub.
    apply (keyword_matches_elem (value_function self) confidence) in Hsub.
    assert (Hin : (other, Float.mul (get_value (value_function self) other) confidence)
                    ∈ all_matches (value_function self) confidence raws).
    { unfold all_matches. rewrite list_elem_of_In, in_flat_map. exists raw.
      by rewrite <- !list_elem_of_In. }
    rewrite Hscores in Hin. by apply not_elem_of_nil in Hin.
  - destruct (pick_first_maximum (first :: rest)) as (i & action & score & Hpick & Hi & _);
      [done|].
    exists action. split; [done|]. left.
    apply list_elem_of_lookup_2 in Hi. rewrite <- Hscores in Hi.
    apply all_matches_elem in Hi as [_ (raw & Hraw & Hcontains)].
    exists raw. split; [done|]. by apply str_contains_spec.
Qed.

Lemma all_matches_lower (vf : VF) confidence raws :
  all_matches vf confidence raws
  = List.flat_map (keyword_matches vf confidence) (List.map lower raws).
Proof.
  unfold all_matches. induction raws as [|raw rest IH]; simpl; [done|]. by rewrite IH.
Qed.

(** X9. Matching ignores letter case: two answers of the language model
    whose candidate texts agree once lowercased lead, with the same value
    function and confidence, to the same result. *)
Theorem select_action_case_insensitive
    self1 self2 context1 context2 angle1 angle2 confidence
    (proposals1 proposals2 : list pyobj) (raws1 raws2 : list string) :
  value_function self1 = value_function self2 ->
  generate (language_model self1) (prompt_of context1 angle1 confidence) 50 3
    = Ok proposals1 ->
  generate (language_model self2) (prompt_of context2 angle2 confidence) 50 3
    = Ok proposals2 ->
  Forall2 generated_text proposals1 raws1 ->
  Forall2 generated_text proposals2 raws2 ->
  List.map lower raws1 = List.map lower raws2 ->
  select_action self1 context1 angle1 confidence
    = select_action self2 context2 angle2 confidence.
Proof.
  intros Hvf Hgen1 Hgen2 Hall1 Hall2 Hlower.
  rewrite (select_action_readable _ _ _ _ proposals1 raws1) by done.
  rewrite (select_action_readable _ _ _ _ proposals2 raws2) by done.
  by rewrite !all_matches_lower, Hvf, Hlower.
Qed.

Lemma keyword_matches_length (vf : VF) confidence (text : string) :
  (List.length (keyword_matches vf confidence text) <= 11)%nat.
Proof.
  unfold keyword_matches. rewrite length_map.
  etransitivity; [apply List.filter_length_le|]. done.
Qed.

(** X10. A candidate contributes at most 11 pairs, one per action at
    most: the score list built from [n] candidates that carry texts has at
    most [11 * n] pairs. *)
Theorem build_scores_length self confidence proposals raws scores :
  Forall2 generated_text proposals raws ->
  build_scores self confidence proposals = Ok scores ->
  (List.length scores <= 11 * List.length proposals)%nat.
Proof.
  intros Hall Hscores. rewrite (build_scores_ok _ _ _ raws) in Hscores by done.
  injection Hscores as <-. rewrite (Forall2_length _ _ _ Hall).
  unfold all_matches. clear Hall. induction raws as [|raw rest IH]; simpl; [lia|].
  rewrite length_app.
  pose proof (keyword_matches_length (value_function self) confidence (lower raw)). lia.
Qed.

End Selection.

(** ** Keywords that contain other keywords *)

Section Shadowing.
Context {LM VF : Type} `{!ILanguageModel LM} `{!IValueFunction VF}.
Implicit Types (self : ActionSelector LM VF) (context : RobotContext).
Implicit Types (angle confidence : float) (proposals : list pyobj).
Implicit Types (raws : list string) (scores : list (Action * float)).

Lemma append_assoc (s t u : string) : (s +:+ t) +:+ u = s +:+ t +:+ u.
Proof. induction s as [|c s IH]; [done|]. rewrite !append_cons. by rewrite IH. Qed.

Lemma is_substring_trans (s t u : string) :
  is_substring s t -> is_substring t u -> is_substring s u.
Proof.
  intros (pre & post & ->) (pre' & post' & ->).
  exists (pre' +:+ pre), (post +:+ post'). by rewrite !append_assoc.
Qed.

(** [List.filter] keeps the order of the items it keeps. *)
Lemma filter_keeps_order {A : Type} (t : A -> bool) (l : list A) (a b : A) (ia ib i : nat) :
  NoDup l -> l !! ia = Some a -> l !! ib = Some b -> (ia < ib)%nat -> t a = true ->
  List.filter t l !! i = Some b ->
  exists j, (j < i)%nat /\ List.filter t l !! j = Some a.
Proof.
  revert ia ib i. induction l as [|it l IH]; intros ia ib i Hnodup Ha Hb Hlt Hta Hi; [done|].
  apply NoDup_cons in Hnodup as [Hnotin Hnodup].
  destruct ib as [|ib]; [lia|]. simpl in Hb.
  assert (Hneq : it <> b).
  { intros ->. apply Hnotin. by eapply list_elem_of_lookup_2. }
  destruct ia as [|ia]; simpl in Ha.
  - injection Ha as ->. simpl in Hi. rewrite Hta in Hi.
    destruct i as [|i]; simpl in Hi; [congruence|].
    exists 0%nat. split; [lia|]. simpl. by rewrite Hta.
  - simpl in *. destruct (t it).
    + destruct i as [|i]; simpl in Hi; [congruence|].
      destruct (IH ia ib i) as (j & Hj & Hlook); try done; [lia|].
      exists (S j). split; [lia|done].
    + apply (IH ia ib i); try done. lia.
Qed.

Lemma lookup_map_pair {A B : Type} (f : A -> B) (l : list A) (i : nat) (a : A) (b : B) :
  List.map (fun a => (a, f a)) l !! i = Some (a, b) -> l !! i = Some a.
Proof.
  revert i. induction l as [|it l IH]; intros [|i] Hi; simpl in *; try done.
  - congruence.
  - by apply IH.
Qed.

Lemma lookup_map_pair_2 {A B : Type} (f : A -> B) (l : list A) (i : nat) (a : A) :
  l !! i = Some a -> List.map (fun a => (a, f a)) l !! i = Some (a, f a).
Proof.
  revert i. induction l as [|it l IH]; intros [|i] Hi; simpl in *; try done.
  - congruence.
  - by apply IH.
Qed.

Lemma flat_map_before {A B : Type} (f : A -> list B) (p q : B) (l : list A) (i : nat) :
  (forall a k, f a !! k = Some q -> exists j, (j < k)%nat /\ f a !! j = Some p) ->
  List.flat_map f l !! i = Some q ->
  exists j, (j < i)%nat /\ List.flat_map f l !! j = Some p.
Proof.
  intros Hblock. revert i. induction l as [|a l IH]; intros i Hi; [done|].
  simpl in *. apply lookup_app_Some in Hi as [Hi|[Hlen Hi]].
  - destruct (Hblock a i Hi) as (j & Hj & Hlook).
    exists j. split; [done|]. by apply lookup_app_l_Some.
  - destruct (IH _ Hi) as (j & Hj & Hlook).
    exists (List.length (f a) + j)%nat. split; [lia|].
    rewrite lookup_app_r by lia.
    by replace (List.length (f a) + j - List.length (f a))%nat with j by lia.
Qed.

Lemma all_actions_nodup : NoDup all_actions.
Proof. apply (bool_decide_unpack _). by vm_compute. Qed.

Lemma all_actions_lookup (action : Action) :
  all_actions !! Action_index action = Some action.
Proof. by destruct action. Qed.

(** Within one candidate, the pair of an action whose keyword is part of
    the keyword of a later action comes before that action's pair. *)
Lemma keyword_matches_before (vf : VF) confidence (text : string)
    (a b : Action) (score : float) (k : nat) :
  (Action_index a < Action_index b)%nat ->
  is_substring (value a) (value b) ->
  keyword_matches vf confidence text !! k = Some (b, score) ->
  exists j, (j < k)%nat /\
    keyword_matches vf confidence text !! j = Some (a, score_of vf confidence a).
Proof.
  intros Hlt Hsub Hk. unfold keyword_matches in *.
  pose proof (lookup_map_pair (fun action => Float.mul (get_value vf action) confidence)
                _ _ _ _ Hk) as Hb.
  assert (Hta : str_contains (value a) text = true).
  { apply str_contains_spec. apply (is_substring_trans _ (value b)); [done|].
    apply str_contains_spec.
    apply list_elem_of_lookup_2, list_elem_of_In, filter_In in Hb. tauto. }
  destruct (filter_keeps_order (fun action => str_contains (value action) text)
              all_actions a b (Action_index a) (Action_index b) k)
    as (j & Hj & Hlook);
    auto using all_actions_nodup, all_actions_lookup.
  exists j. split; [done|].
  by apply (lookup_map_pair_2 (fun action => Float.mul (get_value vf action) confidence)).
Qed.

Lemma pick_blocked (vf : VF) confidence raws (a b : Action) :
  pick (all_matches vf confidence raws) = Ok b ->
  (Action_index a < Action_index b)%nat ->
  is_substring (value a) (value b) ->
  score_geb (score_of vf confidence a) (score_of vf confidence b) = false.
Proof.
  intros Hpick Hlt Hsub.
  destruct (all_matches vf confidence raws) as [|first rest] eqn:Hscores.
  - injection Hpick as <-. apply str_contains_spec in Hsub.
    destruct a; simpl in Hlt; try lia; by vm_compute in Hsub.
  - destruct (pick_first_maximum (first :: rest))
      as (i & action & score & Hpick' & Hi & Hmax & Hfirst); [done|].
    rewrite Hpick in Hpick'. injection Hpick' as <-.
    rewrite <- Hscores in Hi, Hmax, Hfirst.
    assert (Hscore : score = score_of vf confidence b).
    { apply list_elem_of_lookup_2, all_matches_elem in Hi. tauto. }
    subst score.
    destruct (flat_map_before
                (fun raw => keyword_matches vf confidence (lower raw))
                (a, score_of vf confidence a) (b, score_of vf confidence b) raws i)
      as (j & Hj & Hlook); [|done|].
    { intros raw k. by apply keyword_matches_before. }
    unfold score_geb. apply orb_false_intro.
    + apply (Hmax (a, score_of vf confidence a)). by eapply list_elem_of_lookup_2.
    + by apply (Hfirst j (a, score_of vf confidence a)).
Qed.

(** X11. An action whose keyword contains the keyword of an earlier action
    of the enumeration is returned only when it beats that action: if
    [select_action] returns [b], then for every earlier [a] whose keyword is
    a substring of the keyword of [b], the score of [a] is neither greater
    than nor equal to the score of [b]. *)
Theorem select_action_keyword_inside_keyword
    self context angle confidence proposals raws (a b : Action) :
  generate (language_model self) (prompt_of context angle confidence) 50 3 = Ok proposals ->
  Forall2 generated_text proposals raws ->
  select_action self context angle confidence = Ok b ->
  (Action_index a < Action_index b)%nat ->
  is_substring (value a) (value b) ->
  score_geb (score_of (value_function self) confidence a)
            (score_of (value_function self) confidence b) = false.
Proof.
  intros Hgen Hall Hsel. rewrite (select_action_readable _ _ _ _ proposals raws) in Hsel by done.
  by apply (pick_blocked _ _ raws).
Qed.

(** X12. On candidates that carry texts, if the score of each diagonal's
    axis move (MOVE_FORWARD for the two forward diagonals, MOVE_BACKWARD for
    the two backward ones) compares greater than or equal to the score of
    the diagonal, a comparison that fails as soon as one of the two is NaN,
    then [select_action] returns an action and it is none of the four
    diagonals, whatever the candidates say. *)
Theorem select_action_never_diagonal
    self context angle confidence proposals raws :
  generate (language_model self) (prompt_of context angle confidence) 50 3 = Ok proposals ->
  Forall2 generated_text proposals raws ->
  (forall diagonal, is_diagonal diagonal = true ->
     score_geb (score_of (value_function self) confidence (axis_of diagonal))
               (score_of (value_function self) confidence diagonal) = true) ->
  exists action : Action,
    select_action self context angle confidence = Ok action /\
    is_diagonal action = false.
Proof.
  intros Hgen Hall Haxis.
  rewrite (select_action_readable _ _ _ _ proposals raws) by done.
  destruct (pick_total (all_matches (value_function self) confidence raws))
    as [action Hsel].
  exists action. split; [done|].
  destruct (is_diagonal action) eqn:Hdiag; [|done].
  specialize (Haxis action Hdiag).
  rewrite (pick_blocked _ _ raws (axis_of action) action Hsel) in Haxis.
  - done.
  - destruct action; simpl in *; try done; lia.
  - apply str_contains_spec. by destruct action.
Qed.

End Shadowing.

(** ** More on the motion controller and the value table *)

Section Commands.
Variable DIAGONAL_FACTOR : float.
Implicit Types (action : Action) (speed : float).

Lemma neg_involutive (a : float) : Float.neg (Float.neg a) = a.
Proof. destruct a; simpl; by rewrite ?negb_involutive. Qed.

(** X13. Driving an action at the negated speed is driving the opposite
    action: the two messages are the same, field by field. *)
Theorem get_twist_for_action_negated_speed action speed :
  get_twist_for_action DIAGONAL_FACTOR action (Float.neg speed)
  = get_twist_for_action DIAGONAL_FACTOR (opposite action) speed.
Proof. destruct action; simpl; by rewrite ?neg_involutive. Qed.

Lemma neg_neq (a : float) : Float.zero_or_nan a = false -> Float.neg a <> a.
Proof. by destruct a as [[]|[]| |[] m e]. Qed.

Lemma not_zero (a : float) : Float.zero_or_nan a = false -> a <> Float.zero.
Proof. intros Ha ->. done. Qed.

Lemma neg_not_zero (a : float) : Float.zero_or_nan a = false -> Float.neg a <> Float.zero.
Proof. by destruct a as [[]|[]| |[] m e]. Qed.

(** X14. When neither the speed nor its product with the diagonal factor
    is a zero or NaN, different actions give different velocity commands:
    the command tells which action was selected. *)
Theorem get_twist_for_action_injective (action1 action2 : Action) speed :
  Float.zero_or_nan speed = false ->
  Float.zero_or_nan (Float.mul speed DIAGONAL_FACTOR) = false ->
  velocity_command (get_twist_for_action DIAGONAL_FACTOR action1 speed)
    = velocity_command (get_twist_for_action DIAGONAL_FACTOR action2 speed) ->
  action1 = action2.
Proof.
  intros Hs Hsd.
  pose proof (neg_neq _ Hs) as Hs1. pose proof (not_zero _ Hs) as Hs2.
  pose proof (neg_not_zero _ Hs) as Hs3.
  pose proof (neg_neq _ Hsd) as Hd1. pose proof (not_zero _ Hsd) as Hd2.
  pose proof (neg_not_zero _ Hsd) as Hd3.
  unfold velocity_command.
  destruct action1, action2; simpl; rewrite ?FloatFacts.mul_neg_l;
    intros [= ]; try reflexivity; exfalso; congruence.
Qed.

End Commands.

(** X15. The table of [SimpleValueFunction.__init__] has an entry for each
    of the 11 actions, so [get_value] never falls back to 0.0 on it; every
    weight lies between 0.1 and 0.5, MOVE_FORWARD alone has the greatest
    and STOP alone the least. *)
Theorem shipped_values_range (action : Action) :
  values SimpleValueFunction_init !! action
    = Some (get_value SimpleValueFunction_init action) /\
  score_geb (get_value SimpleValueFunction_init action) (Float.dec 1 1) = true /\
  score_geb (Float.dec 5 1) (get_value SimpleValueFunction_init action) = true /\
  (Float.eqb (get_value SimpleValueFunction_init action) (Float.dec 5 1)
     = bool_decide (action = MOVE_FORWARD)) /\
  (Float.eqb (get_value SimpleValueFunction_init action) (Float.dec 1 1)
     = bool_decide (action = STOP)).
Proof. destruct action; split_and!; by vm_compute. Qed.

(** ** The text-generation pipeline and degenerate confidences *)

(** X16. [select_action] on a [GPT2LanguageModel] asks the pipeline once,
    for 3 sequences of at most 50 tokens: two pipelines that answer alike
    at these arguments yield the same result, however they differ
    elsewhere. *)
Theorem select_action_pipeline_arguments {VF : Type} `{!IValueFunction VF}
    (pipeline1 pipeline2 : fstring -> Z -> Z -> result (list pyobj)) (vf : VF)
    (context : RobotContext) (angle confidence : float) :
  pipeline1 (prompt_of context angle confidence) 50 3
    = pipeline2 (prompt_of context angle confidence) 50 3 ->
  select_action {| language_model := {| model := pipeline1 |}; value_function := vf |}
      context angle confidence
  = select_action {| language_model := {| model := pipeline2 |}; value_function := vf |}
      context angle confidence.
Proof.
  intros Hsame. unfold select_action, generate, GPT2LanguageModel_generate. simpl.
  rewrite Hsame. destruct (pipeline2 _ 50 3) as [proposals|e]; simpl; [|done].
  by rewrite (build_scores_value_function
                {| language_model := {| model := pipeline1 |}; value_function := vf |}
                {| language_model := {| model := pipeline2 |}; value_function := vf |}).
Qed.

Section NanConfidence.
Context {LM VF : Type} `{!ILanguageModel LM} `{!IValueFunction VF}.

Lemma all_matches_nan (vf : VF) (raws : list string) (p : Action * float) :
  p ∈ all_matches vf S754_nan raws -> p.2 = S754_nan.
Proof.
  intros [Hscore _]%all_matches_elem. rewrite Hscore.
  unfold score_of. by destruct (get_value vf p.1).
Qed.

(** X17. With a NaN confidence and candidates that carry texts, every score
    of the list is NaN, no score compares greater than another, and
    [select_action] returns the action of the first pair, the first match
    in list order (STOP when nothing matches). *)
Theorem select_action_nan_confidence_first_match
    (self : ActionSelector LM VF) (context : RobotContext) (angle : float)
    (proposals : list pyobj) (raws : list string) :
  generate (language_model self) (prompt_of context angle S754_nan) 50 3 = Ok proposals ->
  Forall2 generated_text proposals raws ->
  exists scores : list (Action * float),
    build_scores self S754_nan proposals = Ok scores /\
    scores = all_matches (value_function self) S754_nan raws /\
    (forall p : Action * float, p ∈ scores -> p.2 = S754_nan) /\
    (forall p q : Action * float,
        p ∈ scores -> q ∈ scores -> Float.gtb p.2 q.2 = false) /\
    select_action self context angle S754_nan = Ok (hd STOP (List.map fst scores)).
Proof.
  intros Hgen Hall. exists (all_matches (value_function self) S754_nan raws).
  split_and!.
  - by apply build_scores_ok.
  - done.
  - intros p. apply all_matches_nan.
  - intros p q Hp%all_matches_nan Hq%all_matches_nan. by rewrite Hp, Hq.
  - rewrite (select_action_readable _ _ _ _ proposals raws) by done.
    apply pick_flat. intros p Hp%all_matches_nan. by rewrite Hp.
Qed.

End NanConfidence.

(** ** The further properties on concrete runs *)

(** X1 on a message with a single number. *)
Lemma sound_callback_malformed_sample_witness :
  sound_callback cos_pi_4 (fixed_node (Ok scenario_candidates)) [Float.of_Z 45]
  = Raise ValueError.
Proof.
  apply (sound_callback_malformed_sample cos_pi_4
           (fixed_node (Ok scenario_candidates)) [Float.of_Z 45]).
  simpl. lia.
Defined.

(** X2 on the diagonal scenario. *)
Lemma sound_callback_publishes_selected_witness :
  exists action : Action,
    pick (all_matches SimpleValueFunction_init (Float.dec 5 1) scenario_texts) = Ok action /\
    sound_callback cos_pi_4 (fixed_node (Ok scenario_candidates))
      [Float.of_Z 45; Float.dec 5 1] =
      Ok {| context := RobotContext_default;
            action_selector := fixed_selector (Ok scenario_candidates);
            published := [] ++ [get_twist_for_action cos_pi_4 action DEFAULT_SPEED];
            logged := [] ++
              [[FText "Executing action: "; FText (value action);
                FText " based on sound: angle="; FFloat (Float.of_Z 45);
                FText ", confidence="; FFloat (Float.dec 5 1)]] |}.
Proof.
  exact (sound_callback_publishes_selected cos_pi_4 (fixed_node (Ok scenario_candidates))
           (Float.of_Z 45) (Float.dec 5 1) scenario_candidates scenario_texts
           eq_refl scenario_texts_generated).
Defined.

(** X4 on the node of [main]: a context update, a sample, a second update
    and a second sample. *)
Lemma deliver_all_invariant_witness :
  exists self' : Node,
    deliver_all cos_pi_4
      (OmniTableRobotSayCan_init (fixed_model (Ok scenario_candidates))
         SimpleValueFunction_init)
      [ RobotContextText "The robot table is in a kitchen.";
        SoundLocalization [Float.of_Z 45; Float.dec 5 1];
        RobotContextText "The robot table is in a hall.";
        SoundLocalization [Float.of_Z 270; Float.dec 9 1] ] = Ok self' /\
    description (context self') = "The robot table is in a hall." /\
    List.length (published self') = 2%nat /\
    List.length (logged self') = 5%nat.
Proof.
  destruct (deliver_all cos_pi_4
      (OmniTableRobotSayCan_init (fixed_model (Ok scenario_candidates))
         SimpleValueFunction_init)
      [ RobotContextText "The robot table is in a kitchen.";
        SoundLocalization [Float.of_Z 45; Float.dec 5 1];
        RobotContextText "The robot table is in a hall.";
        SoundLocalization [Float.of_Z 270; Float.dec 9 1] ]) as [self'|e] eqn:Hrun.
  - exists self'. split; [reflexivity|].
    destruct (deliver_all_invariant cos_pi_4 _ _ _ Hrun)
      as (_ & Hdesc & (actions & Hlen & Hpub) & Hlog).
    split; [exact Hdesc|]. split; [|exact Hlog].
    rewrite Hpub. simpl. rewrite length_map. exact Hlen.
  - vm_compute in Hrun. discriminate Hrun.
Defined.

(** X5 on a readable candidate followed by an empty list. *)
Lemma select_action_unreadable_candidate_witness :
  select_action (fixed_selector (Ok [candidate "move_forward"; PyList []]))
    RobotContext_default (Float.of_Z 45) (Float.dec 9 1) = Raise IndexError.
Proof.
  apply (select_action_unreadable_candidate
           (fixed_selector (Ok [candidate "move_forward"; PyList []]))
           RobotContext_default (Float.of_Z 45) (Float.dec 9 1)
           [candidate "move_forward"] ["move_forward"] (PyList []) []).
  - reflexivity.
  - repeat constructor. eexists. split; reflexivity.
  - reflexivity.
Defined.

(** X6 on a model that returns plain strings. *)
Lemma select_action_string_candidate_witness :
  select_action (fixed_selector (Ok [PyStr "move_forward"; PyStr "stop"]))
    RobotContext_default (Float.of_Z 45) (Float.dec 9 1) = Raise TypeError.
Proof.
  exact (select_action_string_candidate
           (fixed_selector (Ok [PyStr "move_forward"; PyStr "stop"]))
           RobotContext_default (Float.of_Z 45) (Float.dec 9 1)
           [] [] "move_forward" [PyStr "stop"] eq_refl (List.Forall2_nil generated_text)).
Defined.

(** X7 on a model that returns dictionaries with the only key
    'generated_text'. *)
Lemma select_action_dict_without_key_0_witness :
  select_action
    (fixed_selector (Ok [PyDict [(KStr "generated_text", PyStr "move_forward")]]))
    RobotContext_default (Float.of_Z 45) (Float.dec 9 1) = Raise KeyError.
Proof.
  exact (select_action_dict_without_key_0
           (fixed_selector (Ok [PyDict [(KStr "generated_text", PyStr "move_forward")]]))
           RobotContext_default (Float.of_Z 45) (Float.dec 9 1)
           [] [] [(KStr "generated_text", PyStr "move_forward")] []
           eq_refl (List.Forall2_nil generated_text) eq_refl).
Defined.

(** X8 on the diagonal scenario. *)
Lemma select_action_returns_mentioned_or_stop_witness :
  exists action : Action,
    select_action (fixed_selector (Ok scenario_candidates))
      RobotContext_default (Float.of_Z 45) (Float.dec 5 1) = Ok action /\
    ((exists raw, raw ∈ scenario_texts /\ is_substring (value action) (lower raw)) \/
     (action = STOP /\
      forall raw other, raw ∈ scenario_texts -> ~ is_substring (value other) (lower raw))).
Proof.
  exact (select_action_returns_mentioned_or_stop
           (fixed_selector (Ok scenario_candidates)) RobotContext_default
           (Float.of_Z 45) (Float.dec 5 1) scenario_candidates scenario_texts
           eq_refl scenario_texts_generated).
Defined.

(** X9 on two answers that differ in letter case only. *)
Lemma select_action_case_insensitive_witness :
  select_action (fixed_selector (Ok [candidate "MOVE_LEFT now"]))
    RobotContext_default (Float.of_Z 45) (Float.dec 9 1)
  = select_action (fixed_selector (Ok [candidate "Move_Left NOW"]))
      RobotContext_default (Float.of_Z 45) (Float.dec 9 1).
Proof.
  apply (select_action_case_insensitive
           (fixed_selector (Ok [candidate "MOVE_LEFT now"]))
           (fixed_selector (Ok [candidate "Move_Left NOW"]))
           RobotContext_default RobotContext_default (Float.of_Z 45) (Float.of_Z 45)
           (Float.dec 9 1)
           [candidate "MOVE_LEFT now"] [candidate "Move_Left NOW"]
           ["MOVE_LEFT now"] ["Move_Left NOW"]).
  - reflexivity.
  - reflexivity.
  - reflexivity.
  - repeat constructor. eexists. split; reflexivity.
  - repeat constructor. eexists. split; reflexivity.
  - reflexivity.
Defined.

(** X10 on the diagonal scenario: 3 pairs from 2 candidates. *)
Lemma build_scores_length_witness :
  (List.length [ (MOVE_FORWARD, Float.dec 25 2);
                 (MOVE_FORWARD_LEFT, Float.dec 225 3);
                 (SPIN_CLOCKWISE, Float.dec 15 2) ]
   <= 11 * List.length scenario_candidates)%nat.
Proof.
  apply (build_scores_length (fixed_selector (Ok scenario_candidates)) (Float.dec 5 1)
           scenario_candidates scenario_texts).
  - exact scenario_texts_generated.
  - vm_compute. reflexivity.
Defined.

(** X11 at a negative confidence, where the diagonal does win: its score
    -0.225 is above the -0.25 of MOVE_FORWARD. *)
Lemma select_action_keyword_inside_keyword_witness :
  score_geb (score_of SimpleValueFunction_init (Float.dec (-5) 1) MOVE_FORWARD)
            (score_of SimpleValueFunction_init (Float.dec (-5) 1) MOVE_FORWARD_LEFT)
  = false.
Proof.
  apply (select_action_keyword_inside_keyword
           (fixed_selector (Ok [candidate "move_forward_left"]))
           RobotContext_default (Float.of_Z 45) (Float.dec (-5) 1)
           [candidate "move_forward_left"] ["move_forward_left"]
           MOVE_FORWARD MOVE_FORWARD_LEFT).
  - reflexivity.
  - repeat constructor. eexists. split; reflexivity.
  - vm_compute. reflexivity.
  - simpl. lia.
  - apply str_contains_spec. reflexivity.
Defined.

(** X12 on the shipped table at confidence 0.9, with a candidate that
    names a diagonal. *)
Lemma select_action_never_diagonal_witness :
  exists action : Action,
    select_action (fixed_selector (Ok scenario_candidates)) RobotContext_default
      (Float.of_Z 45) (Float.dec 9 1) = Ok action /\
    is_diagonal action = false.
Proof.
  apply (select_action_never_diagonal
           (fixed_selector (Ok scenario_candidates)) RobotContext_default
           (Float.of_Z 45) (Float.dec 9 1) scenario_candidates scenario_texts).
  - reflexivity.
  - exact scenario_texts_generated.
  - intros diagonal Hdiag. destruct diagonal; try discriminate Hdiag; reflexivity.
Defined.

(** X14 at the default speed. *)
Lemma get_twist_for_action_injective_witness :
  Float.zero_or_nan DEFAULT_SPEED = false /\
  Float.zero_or_nan (Float.mul DEFAULT_SPEED cos_pi_4) = false /\
  MOVE_LEFT = MOVE_LEFT.
Proof.
  split; [reflexivity|]. split; [reflexivity|].
  apply (get_twist_for_action_injective cos_pi_4 MOVE_LEFT MOVE_LEFT DEFAULT_SPEED);
    reflexivity.
Defined.

(** X16 on two pipelines that differ on other arguments only. *)
Lemma select_action_pipeline_arguments_witness :
  select_action
    {| language_model :=
         {| model := fun _ max_length _ =>
                       if max_length =? 50 then Ok scenario_candidates
                       else Raise generation_failure |};
       value_function := SimpleValueFunction_init |}
    RobotContext_default (Float.of_Z 45) (Float.dec 5 1)
  = select_action
      {| language_model := {| model := fun _ _ _ => Ok scenario_candidates |};
         value_function := SimpleValueFunction_init |}
      RobotContext_default (Float.of_Z 45) (Float.dec 5 1).
Proof.
  apply (select_action_pipeline_arguments
           (fun _ max_length _ =>
              if max_length =? 50 then Ok scenario_candidates else Raise generation_failure)
           (fun _ _ _ => Ok scenario_candidates)
           SimpleValueFunction_init RobotContext_default (Float.of_Z 45) (Float.dec 5 1)).
  reflexivity.
Defined.

(** X17 on a candidate that names two actions: the first of them in
    enumeration order, MOVE_LEFT, is returned. *)
Lemma select_action_nan_confidence_first_match_witness :
  exists scores : list (Action * float),
    build_scores (fixed_selector (Ok [candidate "spin_clockwise or move_left"]))
      S754_nan [candidate "spin_clockwise or move_left"] = Ok scores /\
    scores = all_matches SimpleValueFunction_init S754_nan ["spin_clockwise or move_left"] /\
    (forall p : Action * float, p ∈ scores -> p.2 = S754_nan) /\
    (forall p q : Action * float,
        p ∈ scores -> q ∈ scores -> Float.gtb p.2 q.2 = false) /\
    select_action (fixed_selector (Ok [candidate "spin_clockwise or move_left"]))
      RobotContext_default (Float.of_Z 45) S754_nan
    = Ok (hd STOP (List.map fst scores)).
Proof.
  apply (select_action_nan_confidence_first_match
           (fixed_selector (Ok [candidate "spin_clockwise or move_left"]))
           RobotContext_default (Float.of_Z 45)
           [candidate "spin_clockwise or move_left"] ["spin_clockwise or move_left"]).
  - reflexivity.
  - repeat constructor. eexists. split; reflexivity.
Defined.

(** The run of X17, evaluated. *)
Example select_action_nan_confidence_move_left :
  select_action (fixed_selector (Ok [candidate "spin_clockwise or move_left"]))
    RobotContext_default (Float.of_Z 45) S754_nan = Ok MOVE_LEFT.
Proof. vm_compute. reflexivity. Qed.
